(** * rusty-beam helper scripts: [test_websocket.py] and [fix_plugin_configs.py]

    A shallow embedding of the two Python scripts.  Each script is a short
    sequence of calls into collaborators that live outside the repository
    (the [websockets] and [asyncio] libraries, the built-in [open] and
    [print]); the scripts themselves contribute the control flow: one
    [try]/[except Exception], one [async with], one [with].  The embedding
    therefore keeps the control flow exact, in a small exception monad over
    an explicit world, and lets the collaborators answer through the world. *)

From Stdlib Require Import ZArith Lia Ascii String DecimalString.
From stdpp Require Import base option list strings gmap.

Local Open Scope Z_scope.

(** ** Python's exceptions and statements *)

Module Py.

(** What a [raise] carries.  Two facts about an exception object matter to
    the scripts: whether it is an instance of [Exception] (the class named
    by the [except] clause) and what [str(e)] is.  [OSError] (of which
    [IOError] is an alias since Python 3.3) is kept apart because the file
    and socket operations raise it; [SystemExit], [CancelledError] and
    [KeyboardInterrupt] because [asyncio.run] and the interpreter treat
    them apart when the script ends. *)
Inductive exn : Type :=
| OSError (errno : Z) (strerror : string) (filename : option string)
| Exception (msg : string)
    (* any other instance of Exception *)
| BaseException (msg : string)
    (* derived from BaseException but not from Exception, and none of the
       three below: GeneratorExit and the like *)
| SystemExit (code : Z)
| CancelledError (interrupt : bool)
    (* asyncio.CancelledError, not an Exception since Python 3.8.  The
       flag says that the task was cancelled because SIGINT arrived: it
       stands for the interrupt count that asyncio.run keeps. *)
| KeyboardInterrupt.

(** [isinstance(e, Exception)] *)
Definition isinstance_Exception (e : exn) : bool :=
  match e with
  | OSError _ _ _ | Exception _ => true
  | BaseException _ | SystemExit _ | CancelledError _ | KeyboardInterrupt =>
      false
  end.


(** [isinstance(e, IOError)] *)
Definition isinstance_IOError (e : exn) : bool :=
  match e with
  | OSError _ _ _ => true
  | _ => false
  end.

(** [str(n)] for an integer. *)
Definition str_int (n : Z) : string := NilZero.string_of_int (Z.to_int n).

Definition apostrophe : ascii := "'"%char.
Definition quotation_mark : ascii := "034"%char.
Definition backslash : ascii := "\"%char.

Fixpoint occurs (c : ascii) (s : string) : bool :=
  match s with
  | EmptyString => false
  | String a s' => Ascii.eqb a c || occurs c s'
  end.

Definition hex_digit (n : nat) : ascii :=
  match n with
  | 0 => "0" | 1 => "1" | 2 => "2" | 3 => "3" | 4 => "4" | 5 => "5"
  | 6 => "6" | 7 => "7" | 8 => "8" | 9 => "9" | 10 => "a" | 11 => "b"
  | 12 => "c" | 13 => "d" | 14 => "e" | _ => "f"
  end%char%nat.

(** How [repr] writes one character of an ASCII string inside the quote
    [quote]. *)
Definition repr_char (quote c : ascii) : string :=
  let n := nat_of_ascii c in
  if Ascii.eqb c backslash || Ascii.eqb c quote then
    String backslash (String c EmptyString)
  else if Ascii.eqb c "010"%char then String backslash "n"
  else if Ascii.eqb c "013"%char then String backslash "r"
  else if Ascii.eqb c "009"%char then String backslash "t"
  else if (n <? 32)%nat || (n =? 127)%nat then
    String backslash
      (String "x"%char
         (String (hex_digit (n / 16)) (String (hex_digit (n mod 16)) EmptyString)))
  else String c EmptyString.

Fixpoint repr_chars (quote : ascii) (s : string) : string :=
  match s with
  | EmptyString => EmptyString
  | String c s' => repr_char quote c +:+ repr_chars quote s'
  end.

(** [repr(s)] for an ASCII string: apostrophes around it, or quotation
    marks when it holds an apostrophe and no quotation mark. *)
Definition repr (s : string) : string :=
  let quote :=
    if occurs apostrophe s && negb (occurs quotation_mark s)
    then quotation_mark else apostrophe in
  String quote (repr_chars quote s) +:+ String quote EmptyString.

(** [str(e)], which is what [f"{e}"] interpolates. *)
Definition str (e : exn) : string :=
  match e with
  | OSError errno strerror filename =>
      "[Errno " +:+ str_int errno +:+ "] " +:+ strerror
      +:+ match filename with
          | Some f => ": " +:+ repr f
          | None => ""
          end
  | Exception msg | BaseException msg => msg
  | SystemExit code => str_int code
  | CancelledError _ | KeyboardInterrupt => ""
  end.

(** A statement either completes or raises. *)
Inductive result (A : Type) : Type :=
| Val (a : A)
| Exc (e : exn).
Arguments Val {A} a.
Arguments Exc {A} e.

(** Statements run in a world [W]. *)
Definition M (W A : Type) : Type := W -> W * result A.

Definition ret {W A} (a : A) : M W A := fun w => (w, Val a).

Definition bind {W A B} (m : M W A) (k : A -> M W B) : M W B :=
  fun w =>
    match m w with
    | (w', Val a) => k a w'
    | (w', Exc e) => (w', Exc e)
    end.

Definition raise {W A} (e : exn) : M W A := fun w => (w, Exc e).

(** [try: body / except Exception as e: handler e].  An exception that is
    not an instance of [Exception] passes through untouched. *)
Definition try_except_Exception {W A}
    (body : M W A) (handler : exn -> M W A) : M W A :=
  fun w =>
    match body w with
    | (w', Val a) => (w', Val a)
    | (w', Exc e) =>
        if isinstance_Exception e then handler e w' else (w', Exc e)
    end.

(** A context manager whose exit method returns [None], so that it never
    swallows the exception of the body (true of file objects and of
    [websockets.connect]). *)
Record context_manager (W H : Type) : Type := {
  enter : M W H;
  exit : H -> M W unit
}.
Arguments enter {W H} _.
Arguments exit {W H} _ _.

(** [with cm as h: body h] and [async with cm as h: body h].  When
    entering raises, the body and the exit method are skipped.  Otherwise
    the exit method runs whatever the body did; an exception of the body
    is re-raised after it, unless the exit method itself raised. *)
Definition with_ {W H A}
    (cm : context_manager W H) (body : H -> M W A) : M W A :=
  fun w =>
    match enter cm w with
    | (w1, Exc e) => (w1, Exc e)
    | (w1, Val h) =>
        match body h w1 with
        | (w2, Val a) =>
            match exit cm h w2 with
            | (w3, Val _) => (w3, Val a)
            | (w3, Exc e') => (w3, Exc e')
            end
        | (w2, Exc e) =>
            match exit cm h w2 with
            | (w3, Val _) => (w3, Exc e)
            | (w3, Exc e') => (w3, Exc e')
            end
        end
    end.

(** [sys.exit(code)] *)
Definition sys_exit {W A} (code : Z) : M W A := raise (SystemExit code).

(** How the interpreter ends once the main module has run.
    [ExitStatus n]: the process exits with status [n] and the interpreter
    writes nothing.  [UncaughtException e]: the interpreter writes the
    traceback of [e] on the standard error stream and the process ends
    with a failure status, see [exit_status]. *)
Inductive termination : Type :=
| ExitStatus (status : Z)
| UncaughtException (e : exn).

(** Status 0 after normal completion; after [SystemExit(code)] the low
    eight bits of the code, which is what the process hands to its parent
    (256 is 0, -1 is 255); the traceback for any other exception. *)
Definition terminate {A} (r : result A) : termination :=
  match r with
  | Val _ => ExitStatus 0
  | Exc (SystemExit code) => ExitStatus (code mod 256)
  | Exc e => UncaughtException e
  end.

(** The status the parent process reads, as [subprocess] reports it: 1
    after a traceback, except that an uncaught [KeyboardInterrupt] makes
    the interpreter end the process by SIGINT, which a parent reads as -2
    (and a shell as 130). *)
Definition exit_status (t : termination) : Z :=
  match t with
  | ExitStatus n => n
  | UncaughtException KeyboardInterrupt => -2
  | UncaughtException _ => 1
  end.


(** Sequencing is written with stdpp's monad notation:
    [x ← m; k] and [m ;; k]. *)
#[global] Instance M_ret {W} : MRet (M W) := fun A => @ret W A.
#[global] Instance M_bind {W} : MBind (M W) := fun A B k m => bind m k.

End Py.

Import Py.

(** ** test_websocket.py *)

Module SmokeTester.

(** The awaited library calls. *)
Inductive call : Type :=
| Connect (uri : string)    (* websockets.connect(uri).__aenter__() *)
| Sleep (seconds : Z)       (* asyncio.sleep(seconds) *)
| Send (message : string)   (* websocket.send(message) *)
| Close.                    (* websockets.connect(uri).__aexit__(...) *)

Inductive outcome : Type :=
| Returns
| Raises (e : exn).

(** What an observer of the process sees, oldest first. *)
Inductive event : Type :=
| Awaited (c : call) (o : outcome)
| Printed (line : string).

Definition history : Type := list event.

(** The server, the network and the event loop: whatever they do, the
    answer to a call is a function of everything that happened before.
    Every awaited call returns or raises: a call that never completes (the
    script sets no timeout) is outside the model, and so is a [print] that
    fails. *)
Definition environment : Type := history -> call -> outcome.

Section Script.

Variable env : environment.

Definition await (c : call) : M history unit :=
  fun h =>
    let o := env h c in
    (h ++ [Awaited c o],
     match o with Returns => Val tt | Raises e => Exc e end).

Definition print (line : string) : M history unit :=
  fun h => (h ++ [Printed line], Val tt).

(** The connection object bound by [as websocket]. *)
Record connection : Type := { peer : string }.

Definition websockets_connect (uri : string)
  : context_manager history connection :=
  {| enter := await (Connect uri) ;; mret {| peer := uri |};
     exit := fun _ => await Close |}.

Definition send (websocket : connection) (message : string)
  : M history unit :=
  await (Send message).

Definition asyncio_sleep (seconds : Z) : M history unit :=
  await (Sleep seconds).

Definition uri : string := "ws://localhost:3000/demos/todo/".

(** The statement guarded by [try]. *)
Definition try_block : M history unit :=
  with_ (websockets_connect uri) (fun websocket =>
    print "WebSocket connected successfully!" ;;
    asyncio_sleep 1 ;;
    send websocket "Hello WebSocket" ;;
    asyncio_sleep 1 ;;
    print "WebSocket connection stable - no crashes!").

Definition except_block (e : exn) : M history unit :=
  print ("Error: " +:+ str e) ;;
  sys_exit 1.

Definition test_websocket : M history unit :=
  try_except_Exception try_block except_block.

(** What leaves [asyncio.run] when the coroutine ended with [e]: the
    runner turns the cancellation it delivered for SIGINT into
    [KeyboardInterrupt] and lets everything else through (Python 3.11 and
    later; the script never cancels or uncancels its own task). *)
Definition reraised (e : exn) : exn :=
  match e with
  | CancelledError true => KeyboardInterrupt
  | _ => e
  end.

(** [asyncio.run(coro)] runs the coroutine to its end and hands back what
    it returned or raised, the cancellation of an interrupt apart. *)
Definition asyncio_run (coro : M history unit) : M history unit :=
  fun h =>
    let r := coro h in
    (fst r,
     match snd r with
     | Val a => Val a
     | Exc e => Exc (reraised e)
     end).

(** The guarded last line of the module, from a fresh process. *)
Definition main : history * result unit := asyncio_run test_websocket [].

Definition observed : history := fst main.
Definition status : termination := terminate (snd main).

End Script.

(** *** Reading a history *)

Definition calls (h : history) : list call :=
  omap (fun ev => match ev with Awaited c _ => Some c | Printed _ => None end) h.

Definition stdout (h : history) : list string :=
  omap (fun ev => match ev with Printed l => Some l | Awaited _ _ => None end) h.

Definition raised (h : history) : list (call * exn) :=
  omap (fun ev => match ev with
                  | Awaited c (Raises e) => Some (c, e)
                  | _ => None
                  end) h.

Definition is_Connect (c : call) : bool :=
  match c with Connect _ => true | _ => false end.
Definition is_Close (c : call) : bool :=
  match c with Close => true | _ => false end.

(** Attempts to open a connection, connections established, and closes. *)
Definition opens (h : history) : nat :=
  length (List.filter is_Connect (calls h)).
Definition is_connection (ev : event) : bool :=
  match ev with Awaited (Connect _) Returns => true | _ => false end.
Definition connections (h : history) : nat :=
  length (List.filter is_connection h).
Definition closes (h : history) : nat :=
  length (List.filter is_Close (calls h)).

(** The library calls of the [try] block in program order, the implicit
    close apart. *)
Definition script_calls : list call :=
  [Connect uri; Sleep 1; Send "Hello WebSocket"; Sleep 1].

(** The exception bound by [except Exception as e], if the clause is
    entered. *)
Definition caught (env : environment) : option exn :=
  match snd (try_block env []) with
  | Exc e => if isinstance_Exception e then Some e else None
  | Val _ => None
  end.

(** *** Sample environments *)

(** The endpoint is up and nothing goes wrong. *)
Definition reachable : environment := fun _ _ => Returns.

(** No listener on the port: the handshake raises
    [ConnectionRefusedError], a subclass of [OSError]. *)
Definition connection_refused : exn :=
  OSError 111 "Connect call failed ('127.0.0.1', 3000)" None.
Definition refused : environment :=
  fun _ c =>
    match c with
    | Connect _ => Raises connection_refused
    | _ => Returns
    end.



(** Ctrl-C during a wait: the runner cancels the task for SIGINT, so that
    [asyncio.sleep] raises [asyncio.CancelledError] into the coroutine. *)
Definition interrupted_in_wait : environment :=
  fun _ c =>
    match c with
    | Sleep _ => Raises (CancelledError true)
    | _ => Returns
    end.


(** The exchange goes well and the closing handshake fails. *)
Definition close_fails : environment :=
  fun _ c =>
    match c with
    | Close => Raises (Exception "sent 1011 (internal error)")
    | _ => Returns
    end.

End SmokeTester.

(** ** fix_plugin_configs.py *)

Module FixtureWriter.

(** *** Text *)

Definition newline : ascii := "010"%char.
Definition double_quote : ascii := "034"%char.
Definition nl : string := String newline "".

(** The markup below is written with an apostrophe wherever the script
    has a double quote (the script's text has no apostrophe of its own);
    [q] puts the double quotes back. *)
Fixpoint q (s : string) : string :=
  match s with
  | EmptyString => EmptyString
  | String c s' =>
      String (if Ascii.eqb c "'"%char then double_quote else c) (q s')
  end.

(** ["\n".join(ls)] *)
Definition unlines (ls : list string) : string := String.concat nl ls.

(** [s.split("\n")] *)
Fixpoint lines (s : string) : list string :=
  match s with
  | EmptyString => [EmptyString]
  | String c s' =>
      if Ascii.eqb c newline then EmptyString :: lines s'
      else match lines s' with
           | l :: ls => String c l :: ls
           | [] => [String c EmptyString]
           end
  end.

(** The triple-quoted literal bound to [selector_config], line by line.
    The backslash of the first line is in the script: ["\!"] is not an
    escape sequence, so Python keeps both characters. *)
Definition selector_config_lines : list string :=
  [ "<\!DOCTYPE html>";
    "<html lang='en'>";
    "<head>";
    "    <title>Selector Handler Plugin Test Configuration</title>";
    "</head>";
    "<body>";
    "    <h1>Selector Handler Plugin Test Configuration</h1>";
    "    ";
    "    <table itemref='host-localhost' itemscope itemtype='http://rustybeam.net/ServerConfig'>";
    "        <tbody>";
    "            <tr>";
    "                <td>Server Root</td>";
    "                <td itemprop='serverRoot'>tests/plugins/hosts/selector-handler</td>";
    "            </tr>";
    "            <tr>";
    "                <td>Address</td>";
    "                <td itemprop='bindAddress'>127.0.0.1</td>";
    "            </tr>";
    "            <tr>";
    "                <td>Port</td>";
    "                <td itemprop='bindPort'>3000</td>";
    "            </tr>";
    "        </tbody>";
    "    </table>";
    "    ";
    "    <table id='host-localhost' itemprop='host' itemscope itemtype='http://rustybeam.net/HostConfig'>";
    "        <tbody>";
    "            <tr>";
    "                <td>Host Name</td>";
    "                <td itemprop='hostName'>localhost</td>";
    "            </tr>";
    "            <tr>";
    "                <td>Host Root</td>";
    "                <td itemprop='hostRoot'>tests/plugins/hosts/selector-handler</td>";
    "            </tr>";
    "            <tr itemprop='plugin' itemscope itemtype='http://rustybeam.net/Plugin'>";
    "                <td>Selector Handler</td>";
    "                <td itemprop='library'>file://./plugins/librusty_beam_selector_handler.so</td>";
    "            </tr>";
    "            <tr itemprop='plugin' itemscope itemtype='http://rustybeam.net/Plugin'>";
    "                <td>File Handler</td>";
    "                <td itemprop='library'>file://./plugins/librusty_beam_file_handler.so</td>";
    "            </tr>";
    "        </tbody>";
    "    </table>";
    "</body>";
    "</html>" ].

Definition selector_config : string := q (unlines selector_config_lines).

(** *** The file system and the terminal *)

Inductive event : Type :=
| Opened (path : string) (failure : option exn)   (* open(path, "w") *)
| Wrote (path : string) (text : string)           (* f.write(text) *)
| Closed (path : string)                          (* f.__exit__(...) *)
| Printed (line : string).

(** [dirs] maps each existing directory to whether the process may write
    in it, [files] maps each existing file to its content, [handles]
    lists the paths of the file objects that are open. *)
Record world : Type := {
  dirs : gmap string bool;
  files : gmap string string;
  handles : list string;
  log : list event
}.

Definition record (ev : event) (w : world) : world :=
  {| dirs := dirs w; files := files w; handles := handles w;
     log := log w ++ [ev] |}.

Definition stdout (w : world) : list string :=
  omap (fun ev => match ev with Printed l => Some l | _ => None end) (log w).

Definition is_Opened (ev : event) : bool :=
  match ev with Opened _ _ => true | _ => false end.

Definition open_attempts (w : world) : nat :=
  length (List.filter is_Opened (log w)).

Definition slash : ascii := "/"%char.

Fixpoint has_slash (p : string) : bool :=
  match p with
  | EmptyString => false
  | String c p' => Ascii.eqb c slash || has_slash p'
  end.

(** [p[:p.rfind("/") + 1]]: the path up to its last slash, the slash
    included. *)
Fixpoint path_head (p : string) : string :=
  match p with
  | EmptyString => EmptyString
  | String c p' =>
      if has_slash p then String c (path_head p') else EmptyString
  end.

Fixpoint all_slashes (s : string) : bool :=
  match s with
  | EmptyString => true
  | String c s' => Ascii.eqb c slash && all_slashes s'
  end.

(** [s.rstrip("/")] *)
Fixpoint rstrip_slashes (s : string) : string :=
  match s with
  | EmptyString => EmptyString
  | String c s' =>
      if all_slashes s then EmptyString else String c (rstrip_slashes s')
  end.

(** [os.path.dirname(p)] of [posixpath]: the head of the path without its
    trailing slashes, unless it is made of slashes only. *)
Definition dirname (p : string) : string :=
  if all_slashes (path_head p) then path_head p
  else rstrip_slashes (path_head p).

Definition ENOENT : Z := 2.
Definition EACCES : Z := 13.

Record file : Type := { file_name : string }.

(** Modelled from the spec: the built-in [open(path, "w")], which is not
    code of the repository.  Section 4.1 gives its contract: it "fails
    with IOError when the parent directory does not exist or is not
    writable" and otherwise "truncates or creates the file".  No other
    cause of failure is modelled. *)
Definition open_w (path : string) : M world file :=
  fun w =>
    match dirs w !! dirname path with
    | None =>
        let e := OSError ENOENT "No such file or directory" (Some path) in
        (record (Opened path (Some e)) w, Exc e)
    | Some false =>
        let e := OSError EACCES "Permission denied" (Some path) in
        (record (Opened path (Some e)) w, Exc e)
    | Some true =>
        (record (Opened path None)
           {| dirs := dirs w;
              files := <[path := EmptyString]> (files w);
              handles := path :: handles w;
              log := log w |},
         Val {| file_name := path |})
    end.

(** Modelled from the spec: [f.write(text)] of the built-in file object,
    which "writes the full text".  The text goes in at the position of the
    file object, which is the end of what it has written since [open].
    The script discards the character count that the call returns. *)
Definition write (f : file) (text : string) : M world unit :=
  fun w =>
    let old := default EmptyString (files w !! file_name f) in
    (record (Wrote (file_name f) text)
       {| dirs := dirs w;
          files := <[file_name f := old +:+ text]> (files w);
          handles := handles w;
          log := log w |},
     Val tt).

(** Modelled from the spec: [f.close()], as called by the [with]
    statement, by which "the handle is released". *)
Definition close (f : file) : M world unit :=
  fun w =>
    (record (Closed (file_name f))
       {| dirs := dirs w;
          files := files w;
          handles :=
            List.filter (fun p => negb (String.eqb p (file_name f))) (handles w);
          log := log w |},
     Val tt).

Definition open_ (path : string) : context_manager world file :=
  {| enter := open_w path; exit := close |}.

Definition print (line : string) : M world unit :=
  fun w => (record (Printed line) w, Val tt).

(** The module body of the script. *)
Definition fix_plugin_configs : M world unit :=
  with_ (open_ "tests/plugins/configs/selector-handler-config.html")
        (fun f => write f selector_config) ;;
  print "Fixed selector-handler config".

(** The output path of the script. *)
Definition config_path : string :=
  "tests/plugins/configs/selector-handler-config.html".

(** The [with] statement of the script with its two constants taken as
    arguments: the [write(path, text)] of section 4.1. *)
Definition write_text (path text : string) : M world unit :=
  with_ (open_ path) (fun f => write f text).

(** *** Sample worlds *)

(** The output directory exists and is writable; nothing is there yet. *)
Definition ready : world :=
  {| dirs := {[ "tests/plugins/configs" := true ]};
     files := ∅; handles := []; log := [] |}.

(** The script is started outside the repository root. *)
Definition elsewhere : world :=
  {| dirs := ∅; files := ∅; handles := []; log := [] |}.

(** The output directory is read-only. *)
Definition read_only : world :=
  {| dirs := {[ "tests/plugins/configs" := false ]};
     files := ∅; handles := []; log := [] |}.

(** An earlier, different configuration is in place. *)
Definition stale : world :=
  {| dirs := {[ "tests/plugins/configs" := true ]};
     files := {[ config_path := "<html></html>" ]};
     handles := []; log := [] |}.

(** Another configuration sits beside the stale one. *)
Definition neighbour_path : string :=
  "tests/plugins/configs/file-handler-config.html".
Definition neighbour : world :=
  {| dirs := {[ "tests/plugins/configs" := true ]};
     files := {[ config_path := "<html></html>";
                 neighbour_path := "<html>kept</html>" ]};
     handles := []; log := [] |}.

End FixtureWriter.

(** ** The fixture behind the literal *)

Module Fixture.

Import FixtureWriter.

(** Modelled from the spec: the [ConfigFixture] of section 3 and its
    plugin entries.  The script has the values only, inside the literal. *)
Record plugin : Type := {
  name : string;
  libraryPath : string
}.

Record ConfigFixture : Type := {
  serverRoot : string;
  bindAddress : string;
  bindPort : Z;
  hostName : string;
  hostRoot : string;
  plugins : list plugin
}.

Definition selector_handler : plugin :=
  {| name := "Selector Handler";
     libraryPath := "file://./plugins/librusty_beam_selector_handler.so" |}.

Definition file_handler : plugin :=
  {| name := "File Handler";
     libraryPath := "file://./plugins/librusty_beam_file_handler.so" |}.

(** The values that the literal of the script embeds. *)
Definition selector_fixture : ConfigFixture :=
  {| serverRoot := "tests/plugins/hosts/selector-handler";
     bindAddress := "127.0.0.1";
     bindPort := 3000;
     hostName := "localhost";
     hostRoot := "tests/plugins/hosts/selector-handler";
     plugins := [selector_handler; file_handler] |}.


Definition cell_close : string := "</td>".
Definition cell_open : string := "                <td>".
Definition prop_open (prop : string) : string :=
  q "                <td itemprop='" +:+ prop +:+ q "'>".

Definition cell (v : string) : string := cell_open +:+ v +:+ cell_close.
Definition prop_cell (prop v : string) : string :=
  prop_open prop +:+ v +:+ cell_close.

Definition plugin_open : string :=
  q "            <tr itemprop='plugin' itemscope itemtype='http://rustybeam.net/Plugin'>".
Definition row_close : string := "            </tr>".

(** Modelled from the spec: the "per-plugin fragment" of section 4.1,
    with the markup that the literal has for each of its two plugins. *)
Definition plugin_rows (p : plugin) : list string :=
  [ plugin_open;
    cell (name p);
    prop_cell "library" (libraryPath p);
    row_close ].

(** Modelled from the spec: the "fixed document skeleton" of section 4.1
    with the field values at their positions.  The markup is the literal's,
    up to the first plugin row and from the last one on. *)
Definition skeleton_head (F : ConfigFixture) : list string :=
  [ "<\!DOCTYPE html>";
    q "<html lang='en'>";
    "<head>";
    "    <title>Selector Handler Plugin Test Configuration</title>";
    "</head>";
    "<body>";
    "    <h1>Selector Handler Plugin Test Configuration</h1>";
    "    ";
    q "    <table itemref='host-localhost' itemscope itemtype='http://rustybeam.net/ServerConfig'>";
    "        <tbody>";
    "            <tr>";
    cell "Server Root";
    prop_cell "serverRoot" (serverRoot F);
    row_close;
    "            <tr>";
    cell "Address";
    prop_cell "bindAddress" (bindAddress F);
    row_close;
    "            <tr>";
    cell "Port";
    prop_cell "bindPort" (str_int (bindPort F));
    row_close;
    "        </tbody>";
    "    </table>";
    "    ";
    q "    <table id='host-localhost' itemprop='host' itemscope itemtype='http://rustybeam.net/HostConfig'>";
    "        <tbody>";
    "            <tr>";
    cell "Host Name";
    prop_cell "hostName" (hostName F);
    row_close;
    "            <tr>";
    cell "Host Root";
    prop_cell "hostRoot" (hostRoot F);
    row_close ].

Definition skeleton_foot : list string :=
  [ "        </tbody>";
    "    </table>";
    "</body>";
    "</html>" ].

Definition render_lines (F : ConfigFixture) : list string :=
  skeleton_head F ++ flat_map plugin_rows (plugins F) ++ skeleton_foot.

(** Modelled from the spec: [render], the template substitution of
    section 4.1.  The script has no such function, only its result for
    one fixture, the literal [selector_config].  Following the section,
    "each field value is inserted at its designated position in a fixed
    document skeleton; the plugin sequence is rendered by repeating a
    per-plugin fragment in sequence order", nothing is escaped; the
    skeleton and the fragment are those of the literal. *)
Definition render (F : ConfigFixture) : string := unlines (render_lines F).

(** *** Reading a document back

    What a consumer finds in a document: these readers say what it means
    for a document to list plugin entries and to hold a value in a cell,
    independently of how the document was produced. *)

Fixpoint drop_prefix (pre s : string) : option string :=
  match pre, s with
  | EmptyString, _ => Some s
  | String a pre', String b s' =>
      if Ascii.eqb a b then drop_prefix pre' s' else None
  | String _ _, EmptyString => None
  end.

Fixpoint drop_suffix (post s : string) : option string :=
  if String.eqb s post then Some EmptyString
  else match s with
       | EmptyString => None
       | String c s' => String c <$> drop_suffix post s'
       end.

(** The text of a line between an opening and a closing tag. *)
Definition between (pre post l : string) : option string :=
  drop_prefix pre l ≫= drop_suffix post.

(** The plugin entries of a document, in document order: every line that
    opens a plugin row, with the two cells that follow it. *)
Fixpoint scan (ls : list string) : list plugin :=
  match ls with
  | [] => []
  | l :: rest =>
      (if String.eqb l plugin_open then
         match rest with
         | l1 :: l2 :: _ =>
             match between cell_open cell_close l1,
                   between (prop_open "library") cell_close l2 with
             | Some n, Some p => [ {| name := n; libraryPath := p |} ]
             | _, _ => []
             end
         | _ => []
         end
       else []) ++ scan rest
  end.

Definition plugin_entries (doc : string) : list plugin := scan (lines doc).

(** The content of the first cell that carries the given [itemprop]. *)
Fixpoint first_cell (prop : string) (ls : list string) : option string :=
  match ls with
  | [] => None
  | l :: rest =>
      match between (prop_open prop) cell_close l with
      | Some v => Some v
      | None => first_cell prop rest
      end
  end.

Definition itemprop_value (prop doc : string) : option string :=
  first_cell prop (lines doc).

(** *** Values that fit on a line *)








(** *** Writing a fixture *)

(** Render, then write: the script with the fixture and the path taken
    as arguments. *)
Definition write_fixture (path : string) (F : ConfigFixture)
  : M world unit :=
  write_text path (render F).

End Fixture.

(** * Properties of test_websocket.py *)

Section SmokeTesterProperties.

Import SmokeTester.

(** Symbolic execution: unfold the script, then ask the environment for
    the outcome of each call that the run reaches, and Python for the class
    of each exception that reaches the [except] clause. *)
Ltac unfold_script :=
  cbv [observed status main asyncio_run test_websocket caught
       try_except_Exception try_block except_block with_ websockets_connect
       enter exit send asyncio_sleep await print sys_exit raise mbind mret
       M_bind M_ret bind ret uri script_calls].

Ltac ask env :=
  match goal with
  | |- context [env ?h ?c] =>
      let Ho := fresh "Ho" in
      destruct (env h c) as [|?e] eqn:Ho; cbn [app fst snd]
  end.

Ltac class_of e :=
  match goal with
  | |- context [isinstance_Exception e] =>
      let Hc := fresh "Hc" in
      destruct (isinstance_Exception e) eqn:Hc; cbn [fst snd]
  end.

Ltac run_script env :=
  unfold_script; cbn [app fst snd]; repeat ask env;
  repeat match goal with e : exn |- _ => class_of e end.

(** C2: when no call raises, the run is connect, wait 1 s, send the
    payload, wait 1 s, close; the coroutine returns and the process exits
    with status 0. *)
Theorem success_scenario (env : environment) :
  raised (observed env) = [] ->
  calls (observed env) =
    [Connect "ws://localhost:3000/demos/todo/"; Sleep 1;
     Send "Hello WebSocket"; Sleep 1; Close]
  /\ stdout (observed env) =
       ["WebSocket connected successfully!";
        "WebSocket connection stable - no crashes!"]
  /\ snd (main env) = Val tt
  /\ status env = ExitStatus 0.
Proof.
  run_script env; cbn; intros Hquiet; try discriminate Hquiet.
  repeat split.
Qed.

Lemma success_scenario_reachable :
  raised (observed reachable) = []
  /\ (calls (observed reachable) =
        [Connect "ws://localhost:3000/demos/todo/"; Sleep 1;
         Send "Hello WebSocket"; Sleep 1; Close]
      /\ stdout (observed reachable) =
           ["WebSocket connected successfully!";
            "WebSocket connection stable - no crashes!"]
      /\ snd (main reachable) = Val tt
      /\ status reachable = ExitStatus 0).
Proof.
  split; [reflexivity|].
  apply (success_scenario reachable). reflexivity.
Defined.

(** C3: every run makes exactly one attempt to open the connection and
    closes it at most once.  A connection that was opened is closed exactly
    once, and the close is the last call of the run, whatever the waits and
    the send did in between; a handshake that failed leaves nothing to
    close. *)
Theorem release_invariant (env : environment) :
  opens (observed env) = 1%nat
  /\ (closes (observed env) <= 1)%nat
  /\ closes (observed env) = connections (observed env)
  /\ match env [] (Connect uri) with
     | Returns =>
         closes (observed env) = 1%nat
         /\ last (calls (observed env)) = Some Close
     | Raises _ => closes (observed env) = 0%nat
     end
  /\ (forall c e, In (c, e) (raised (observed env)) ->
      is_Connect c = false -> closes (observed env) = 1%nat).
Proof.
  run_script env; cbn.
  all: repeat split; try lia.
  all: intros c e' Hin Hnc; try reflexivity.
  all: cbn in Hin; destruct_or!; simplify_eq; try discriminate Hnc; done.
Qed.

Lemma except_clause_runs (env : environment) (e : exn) :
  caught env = Some e ->
  main env =
    (fst (try_block env []) ++ [Printed ("Error: " +:+ str e)],
     Exc (SystemExit 1)).
Proof.
  unfold caught, main, asyncio_run, test_websocket, try_except_Exception.
  destruct (try_block env []) as [h [[]|e']]; cbn [snd fst]; [discriminate|].
  destruct (isinstance_Exception e'); [|discriminate].
  intros [= ->]. reflexivity.
Qed.

Lemma caught_last_raised (env : environment) (e : exn) :
  caught env = Some e -> exists c, last (raised (observed env)) = Some (c, e).
Proof.
  run_script env; cbn; intros Hcaught; simplify_eq; eauto.
Qed.

(** C10, as amended: on a failing run that enters the [except] clause, the
    exit status is exactly 1, and the clause prints one line, the last of
    the run: "Error: " followed by the message of the exception it caught,
    which is the last exception that a call of the run raised. *)
Theorem failing_run_status (env : environment) (e : exn) :
  caught env = Some e ->
  status env = ExitStatus 1
  /\ snd (main env) = Exc (SystemExit 1)
  /\ last (stdout (observed env)) = Some ("Error: " +:+ str e)
  /\ stdout (observed env) =
       stdout (fst (try_block env [])) ++ ["Error: " +:+ str e]
  /\ exists c, last (raised (observed env)) = Some (c, e).
Proof.
  intros Hc. split_and!; [| | | |exact (caught_last_raised env e Hc)].
  all: unfold status, observed; rewrite (except_clause_runs env e Hc).
  all: cbn [fst snd terminate]; try reflexivity.
  all: unfold stdout; rewrite omap_app; cbn [omap list_omap].
  - apply last_snoc.
  - reflexivity.
Qed.

Lemma failing_run_status_refused :
  caught refused = Some connection_refused
  /\ (status refused = ExitStatus 1
      /\ snd (main refused) = Exc (SystemExit 1)
      /\ last (stdout (observed refused)) =
           Some "Error: [Errno 111] Connect call failed ('127.0.0.1', 3000)"
      /\ stdout (observed refused) =
           stdout (fst (try_block refused []))
           ++ ["Error: [Errno 111] Connect call failed ('127.0.0.1', 3000)"]
      /\ exists c, last (raised (observed refused)) = Some (c, connection_refused)).
Proof.
  split; [reflexivity|].
  apply (failing_run_status refused connection_refused).
  reflexivity.
Defined.

(** C10 fails as stated: not every failing run goes through the [except]
    clause.  On Ctrl-C during the first wait the cancellation that
    [asyncio.sleep] raises is no [Exception]: nothing is caught, no
    "Error: " line is printed, [KeyboardInterrupt] leaves [asyncio.run] and
    the process ends by SIGINT, not with status 1. *)
Lemma interrupt_not_caught :
  raised (observed interrupted_in_wait) = [(Sleep 1, CancelledError true)]
  /\ caught interrupted_in_wait = None
  /\ stdout (observed interrupted_in_wait) =
       ["WebSocket connected successfully!"]
  /\ status interrupted_in_wait = UncaughtException KeyboardInterrupt
  /\ exit_status (status interrupted_in_wait) = -2.
Proof. repeat split. Qed.



(** ** Further properties of the script *)


(** X2: the coroutine returns normally exactly when no awaited call
    raised: the script swallows no exception, and it fails for no other
    reason than a call that raised. *)
Theorem returns_iff_nothing_raised (env : environment) :
  snd (main env) = Val tt <-> raised (observed env) = [].
Proof.
  run_script env; cbn; split; intros H; try reflexivity; discriminate H.
Qed.


(** X4: a handshake that raises an instance of [Exception] ends the run
    there: the history is the failed connect and the error line, nothing
    else is awaited or printed (no wait, no send, no close, no "connected"
    line), and the exit status is 1. *)
Theorem handshake_failure (env : environment) (e : exn) :
  env [] (Connect uri) = Raises e ->
  isinstance_Exception e = true ->
  observed env =
    [Awaited (Connect uri) (Raises e); Printed ("Error: " +:+ str e)]
  /\ status env = ExitStatus 1.
Proof.
  intros He Hc. unfold_script. cbn [app fst snd].
  change (env [] (Connect "ws://localhost:3000/demos/todo/"))
    with (env [] (Connect uri)).
  rewrite He. cbn [app fst snd]. rewrite Hc. split; reflexivity.
Qed.

Lemma handshake_failure_refused :
  refused [] (Connect uri) = Raises connection_refused
  /\ isinstance_Exception connection_refused = true
  /\ (observed refused =
        [Awaited (Connect uri) (Raises connection_refused);
         Printed ("Error: " +:+ str connection_refused)]
      /\ status refused = ExitStatus 1).
Proof.
  split; [reflexivity|]. split; [reflexivity|].
  apply (handshake_failure refused connection_refused); reflexivity.
Defined.

Lemma error_line_is_no_progress_line (e : exn) :
  "Error: " +:+ str e <> "WebSocket connected successfully!"
  /\ "Error: " +:+ str e <> "WebSocket connection stable - no crashes!".
Proof. split; intros H; discriminate H. Qed.

(** X5: the two progress lines are truthful.  "WebSocket connected
    successfully!" is printed exactly when the handshake returned, and
    "WebSocket connection stable - no crashes!" exactly when the
    handshake, both waits and the send returned, so that nothing but the
    close can have raised. *)
Theorem progress_lines_truthful (env : environment) :
  (In "WebSocket connected successfully!" (stdout (observed env))
   <-> env [] (Connect uri) = Returns)
  /\ (In "WebSocket connection stable - no crashes!" (stdout (observed env))
      <-> env [] (Connect uri) = Returns
          /\ forall c e, In (c, e) (raised (observed env)) -> c = Close).
Proof.
  run_script env; cbn.
  all: split; split; intros H.
  all: repeat match goal with
         | H : _ \/ _ |- _ => destruct H
         | H : _ /\ _ |- _ => destruct H
         | H : False |- _ => destruct H
         | H : Raises _ = Returns |- _ => discriminate H
         | H : "Error: " +:+ _ = _ |- _ =>
             destruct (error_line_is_no_progress_line _) as [N1 N2];
             first [destruct (N1 H) | destruct (N2 H)]
         | H : @eq string _ _ |- _ => first [discriminate H | clear H]
         end.
  all: first
    [ reflexivity
    | split; [reflexivity|];
      intros c e' Hin; destruct_or!; simplify_eq; reflexivity
    | solve [auto 6]
    | match goal with
      | Hall : forall c e, _ -> c = Close |- _ =>
          discriminate (Hall _ _ (or_introl eq_refl))
      end ].
Qed.

(** X6: a close that raises an instance of [Exception] after a clean
    exchange still fails the run: the success line is already printed, the
    error line follows it, and the exit status is 1.  The success line
    alone does not mean success. *)
Theorem late_failure (env : environment) (e : exn) :
  raised (observed env) = [(Close, e)] ->
  isinstance_Exception e = true ->
  stdout (observed env) =
    ["WebSocket connected successfully!";
     "WebSocket connection stable - no crashes!";
     "Error: " +:+ str e]
  /\ last (calls (observed env)) = Some Close
  /\ status env = ExitStatus 1.
Proof.
  run_script env; cbn.
  all: intros Hr He; simplify_eq; try congruence.
  repeat split.
Qed.

Lemma late_failure_close_fails :
  raised (observed close_fails) =
    [(Close, Exception "sent 1011 (internal error)")]
  /\ isinstance_Exception (Exception "sent 1011 (internal error)") = true
  /\ (stdout (observed close_fails) =
        ["WebSocket connected successfully!";
         "WebSocket connection stable - no crashes!";
         "Error: sent 1011 (internal error)"]
      /\ last (calls (observed close_fails)) = Some Close
      /\ status close_fails = ExitStatus 1).
Proof.
  split; [reflexivity|]. split; [reflexivity|].
  apply (late_failure close_fails (Exception "sent 1011 (internal error)"));
    reflexivity.
Defined.

End SmokeTesterProperties.

(** * Properties of fix_plugin_configs.py *)

Section FixtureWriterProperties.

Import FixtureWriter.

(** The literal has the 1628 characters, 47 lines and 34 double quotes of
    lines 6 to 52 of the script, and starts with the two characters that
    Python keeps for ["\!"]. *)
Lemma selector_config_shape :
  String.length selector_config = 1628%nat
  /\ length (lines selector_config) = 47%nat
  /\ length (List.filter (Ascii.eqb double_quote)
               (list_ascii_of_string selector_config)) = 34%nat
  /\ String.get 1 selector_config = Some "\"%char
  /\ String.get 2 selector_config = Some "!"%char.
Proof. vm_compute. repeat split. Qed.

(** What one pass through the [with] statement does to a world. *)
Lemma write_text_run (path text : string) (w : world) :
  write_text path text w =
    match dirs w !! dirname path with
    | Some true =>
        ({| dirs := dirs w;
            files := <[path := text]> (files w);
            handles :=
              List.filter (fun p => negb (String.eqb p path)) (path :: handles w);
            log := log w ++ [Opened path None; Wrote path text; Closed path] |},
         Val tt)
    | Some false =>
        (record (Opened path
                   (Some (OSError EACCES "Permission denied" (Some path)))) w,
         Exc (OSError EACCES "Permission denied" (Some path)))
    | None =>
        (record (Opened path
                   (Some (OSError ENOENT "No such file or directory" (Some path)))) w,
         Exc (OSError ENOENT "No such file or directory" (Some path)))
    end.
Proof.
  unfold write_text, with_, open_, enter, exit, open_w.
  destruct (dirs w !! dirname path) as [[|]|]; try reflexivity.
  unfold write, close, record; cbn.
  rewrite lookup_insert_eq; cbn. rewrite insert_insert_eq.
  rewrite <- !app_assoc. reflexivity.
Qed.

Lemma script_run (w : world) :
  fix_plugin_configs w =
    match write_text config_path selector_config w with
    | (w', Val _) => (record (Printed "Fixed selector-handler config") w', Val tt)
    | (w', Exc e) => (w', Exc e)
    end.
Proof. reflexivity. Qed.

(** C7: writing twice is writing once.  A second write of the same text
    to the same path leaves the files as the first write left them and
    ends as the first did.  Where the directory of the path is writable,
    each write succeeds, truncating or creating the file and writing the
    full text: after the first write the file holds exactly the text,
    whatever it held before, and after the second it still does.  The
    same holds of two runs of the script, with its path and its literal. *)
Theorem write_idempotent (path text : string) (w : world) :
  let once := write_text path text w in
  let twice := write_text path text once.1 in
  let ran := fix_plugin_configs w in
  let reran := fix_plugin_configs ran.1 in
  (files twice.1 = files once.1
   /\ twice.2 = once.2
   /\ match once.2 with
      | Val _ => files twice.1 !! path = Some text
      | Exc _ => files twice.1 = files w
      end)
  /\ (files reran.1 = files ran.1
      /\ reran.2 = ran.2
      /\ match ran.2 with
         | Val _ => files reran.1 !! config_path = Some selector_config
         | Exc _ => files reran.1 = files w
         end)
  /\ (dirs w !! dirname path = Some true ->
      once.2 = Val tt
      /\ files once.1 = <[path := text]> (files w)
      /\ files once.1 !! path = Some text
      /\ twice.2 = Val tt
      /\ files twice.1 !! path = Some text)
  /\ (dirs w !! dirname config_path = Some true ->
      ran.2 = Val tt
      /\ files ran.1 = <[config_path := selector_config]> (files w)
      /\ files ran.1 !! config_path = Some selector_config
      /\ reran.2 = Val tt
      /\ files reran.1 !! config_path = Some selector_config).
Proof.
  cbv zeta. rewrite !script_run, !write_text_run.
  split; [|split; [|split]].
  - destruct (dirs w !! dirname path) as [[|]|] eqn:Hd;
      cbn [fst snd record dirs files]; rewrite Hd; cbn [fst snd files];
      rewrite ?insert_insert_eq, ?lookup_insert_eq; done.
  - destruct (dirs w !! dirname config_path) as [[|]|] eqn:Hd;
      cbn [fst snd record dirs files]; rewrite Hd;
      cbn [fst snd record dirs files];
      rewrite ?insert_insert_eq, ?lookup_insert_eq; done.
  - intros Hd. rewrite Hd. cbn [fst snd record dirs files]. rewrite Hd.
    cbn [fst snd files].
    rewrite ?insert_insert_eq, ?lookup_insert_eq. done.
  - intros Hd. rewrite Hd. cbn [fst snd record dirs files]. rewrite Hd.
    cbn [fst snd record dirs files].
    rewrite ?insert_insert_eq, ?lookup_insert_eq. done.
Qed.

Lemma write_idempotent_stale :
  files stale !! config_path = Some "<html></html>"
  /\ dirs stale !! dirname config_path = Some true
  /\ (let ran := fix_plugin_configs stale in
      let reran := fix_plugin_configs ran.1 in
      ran.2 = Val tt
      /\ files ran.1 = <[config_path := selector_config]> (files stale)
      /\ files ran.1 !! config_path = Some selector_config
      /\ reran.2 = Val tt
      /\ files reran.1 !! config_path = Some selector_config).
Proof.
  split; [vm_compute; reflexivity|].
  assert (Hd : dirs stale !! dirname config_path = Some true)
    by (vm_compute; reflexivity).
  split; [exact Hd|].
  exact (proj2 (proj2 (proj2
           (write_idempotent config_path selector_config stale))) Hd).
Defined.

(** C8: when the directory of the output file is missing or not
    writable, [open] raises an [IOError], and that very exception leaves
    the script: the process ends with it uncaught, after a single
    attempt to open the file, with nothing printed and no file
    touched. *)
Theorem io_error_surfaces (w : world) :
  dirs w !! dirname config_path = None
  \/ dirs w !! dirname config_path = Some false ->
  exists e,
    isinstance_IOError e = true
    /\ (open_w config_path w).2 = Exc e
    /\ (fix_plugin_configs w).2 = Exc e
    /\ terminate (fix_plugin_configs w).2 = UncaughtException e
    /\ log (fix_plugin_configs w).1 = log w ++ [Opened config_path (Some e)]
    /\ open_attempts (fix_plugin_configs w).1 = S (open_attempts w)
    /\ stdout (fix_plugin_configs w).1 = stdout w
    /\ files (fix_plugin_configs w).1 = files w.
Proof.
  rewrite script_run, write_text_run. unfold open_w, open_attempts, stdout.
  intros [Hd|Hd]; rewrite Hd; cbn [fst snd record log files terminate];
    eexists (OSError _ _ _); rewrite List.filter_app, omap_app, length_app;
    cbn; rewrite app_nil_r; repeat split; lia.
Qed.

Lemma io_error_surfaces_elsewhere :
  (dirs elsewhere !! dirname config_path = None
   \/ dirs elsewhere !! dirname config_path = Some false)
  /\ dirname config_path = "tests/plugins/configs"
  /\ exists e,
       isinstance_IOError e = true
       /\ (open_w config_path elsewhere).2 = Exc e
       /\ (fix_plugin_configs elsewhere).2 = Exc e
       /\ terminate (fix_plugin_configs elsewhere).2 = UncaughtException e
       /\ log (fix_plugin_configs elsewhere).1 =
            log elsewhere ++ [Opened config_path (Some e)]
       /\ open_attempts (fix_plugin_configs elsewhere).1 =
            S (open_attempts elsewhere)
       /\ stdout (fix_plugin_configs elsewhere).1 = stdout elsewhere
       /\ files (fix_plugin_configs elsewhere).1 = files elsewhere.
Proof.
  split; [left; vm_compute; reflexivity|]. split; [reflexivity|].
  apply (io_error_surfaces elsewhere). left. vm_compute. reflexivity.
Defined.

(** C9 fails as stated: a run that succeeds reports it.  With the output
    directory in place the script prints "Fixed selector-handler config",
    a line that a failing run never prints. *)
Lemma success_is_reported :
  (fix_plugin_configs ready).2 = Val tt
  /\ stdout ready = []
  /\ stdout (fix_plugin_configs ready).1 = ["Fixed selector-handler config"]
  /\ stdout (fix_plugin_configs elsewhere).1 = [].
Proof. vm_compute. repeat split. Qed.

(** C9, as amended: the script has no failure message and no handler:
    when the write raises, nothing is printed and the exception ends
    the process uncaught.  It does have a success message: when the
    write succeeds, "Fixed selector-handler config" is printed. *)
Theorem success_message_only (w : world) :
  match (fix_plugin_configs w).2 with
  | Val _ =>
      stdout (fix_plugin_configs w).1 =
        stdout w ++ ["Fixed selector-handler config"]
      /\ terminate (fix_plugin_configs w).2 = ExitStatus 0
  | Exc e =>
      stdout (fix_plugin_configs w).1 = stdout w
      /\ isinstance_IOError e = true
      /\ terminate (fix_plugin_configs w).2 = UncaughtException e
  end.
Proof.
  rewrite script_run, write_text_run. unfold stdout.
  destruct (dirs w !! dirname config_path) as [[|]|];
    cbn [fst snd record log terminate];
    rewrite ?omap_app; cbn; rewrite ?app_nil_r; auto.
Qed.

(** ** Further properties of the script *)

(** X7: the script writes one file and nothing else.  Whatever the
    outcome, every other file keeps its content (or its absence), and the
    set of directories is unchanged: the script never creates the output
    directory, although it imports [os] and [pathlib]. *)
Theorem only_the_config_is_written (w : world) (p : string) :
  p <> config_path ->
  files (fix_plugin_configs w).1 !! p = files w !! p
  /\ dirs (fix_plugin_configs w).1 = dirs w.
Proof.
  intros Hp. rewrite script_run, write_text_run.
  destruct (dirs w !! dirname config_path) as [[|]|];
    cbn [fst snd record dirs files]; split; try reflexivity.
  by rewrite lookup_insert_ne.
Qed.

Lemma only_the_config_is_written_neighbour :
  neighbour_path <> config_path
  /\ files neighbour !! neighbour_path = Some "<html>kept</html>"
  /\ files (fix_plugin_configs neighbour).1 !! config_path
       = Some selector_config
  /\ (files (fix_plugin_configs neighbour).1 !! neighbour_path
        = files neighbour !! neighbour_path
      /\ dirs (fix_plugin_configs neighbour).1 = dirs neighbour).
Proof.
  split; [discriminate|]. split; [vm_compute; reflexivity|].
  split; [vm_compute; reflexivity|].
  apply (only_the_config_is_written neighbour neighbour_path). discriminate.
Defined.

(** X8: the success line is truthful and comes last.  If a run prints
    anything, then the file holds exactly the literal, the run did open,
    write, close and print in that order (so the file was closed before
    the line was printed), and no file object on the path stays open. *)
Theorem fixed_means_written (w : world) :
  stdout (fix_plugin_configs w).1 <> stdout w ->
  files (fix_plugin_configs w).1 !! config_path = Some selector_config
  /\ log (fix_plugin_configs w).1 =
       log w ++ [Opened config_path None;
                 Wrote config_path selector_config;
                 Closed config_path;
                 Printed "Fixed selector-handler config"]
  /\ ~ In config_path (handles (fix_plugin_configs w).1)
  /\ (fix_plugin_configs w).2 = Val tt.
Proof.
  rewrite script_run, write_text_run. unfold stdout.
  destruct (dirs w !! dirname config_path) as [[|]|];
    cbn [fst snd record dirs files handles log]; intros Hout.
  - split; [by rewrite lookup_insert_eq|].
    split; [by rewrite <- app_assoc|]. split; [|reflexivity].
    rewrite filter_In, negb_true_iff, String.eqb_neq. tauto.
  - exfalso. apply Hout. rewrite omap_app. cbn. by rewrite app_nil_r.
  - exfalso. apply Hout. rewrite omap_app. cbn. by rewrite app_nil_r.
Qed.

Lemma fixed_means_written_ready :
  stdout (fix_plugin_configs ready).1 <> stdout ready
  /\ (files (fix_plugin_configs ready).1 !! config_path = Some selector_config
      /\ log (fix_plugin_configs ready).1 =
           log ready ++ [Opened config_path None;
                         Wrote config_path selector_config;
                         Closed config_path;
                         Printed "Fixed selector-handler config"]
      /\ ~ In config_path (handles (fix_plugin_configs ready).1)
      /\ (fix_plugin_configs ready).2 = Val tt).
Proof.
  split; [vm_compute; discriminate|].
  apply (fixed_means_written ready). vm_compute. discriminate.
Defined.

End FixtureWriterProperties.

(** * Properties of the rendered document *)

Section FixtureProperties.

Import FixtureWriter Fixture.

(** ** Lines *)













(** ** Cells *)




(** ** Plugin rows *)






Lemma render_selector_fixture : render selector_fixture = selector_config.
Proof. vm_compute. reflexivity. Qed.




(** C6: the fixture with port 3000, host name "localhost" and the plugins
    "Selector Handler" and "File Handler" renders to the literal of the
    script.  That document holds the block of each plugin, the block of
    "Selector Handler" first; read back, it lists the two plugins in that
    order, and its [bindPort] cell holds 3000. *)
Theorem example_fixture_document :
  bindPort selector_fixture = 3000
  /\ hostName selector_fixture = "localhost"
  /\ name <$> plugins selector_fixture = ["Selector Handler"; "File Handler"]
  /\ render selector_fixture = selector_config
  /\ (exists i j,
        String.index 0 (unlines (plugin_rows selector_handler)) selector_config
          = Some i
        /\ String.index 0 (unlines (plugin_rows file_handler)) selector_config
             = Some j
        /\ (i < j)%nat)
  /\ plugin_entries selector_config = [selector_handler; file_handler]
  /\ itemprop_value "bindPort" selector_config = Some "3000"
  /\ itemprop_value "hostName" selector_config = Some "localhost".
Proof.
  split; [reflexivity|]. split; [reflexivity|]. split; [reflexivity|].
  split; [exact render_selector_fixture|].
  split.
  - eexists _, _. split; [|split].
    + vm_compute. reflexivity.
    + vm_compute. reflexivity.
    + lia.
  - vm_compute. repeat split.
Qed.

(** ** Rendering and writing *)

(** The script is the writer at its own fixture and path. *)
Lemma script_writes_selector_fixture :
  fix_plugin_configs =
    (write_fixture config_path selector_fixture ;;
     print "Fixed selector-handler config").
Proof.
  unfold write_fixture. rewrite render_selector_fixture. reflexivity.
Qed.

End FixtureProperties.
